(** * A shallow embedding of [src/fsm/fsm.py]

    The module defines one class, [FSM]: a registry of states (a dict
    from integer identifiers to an entry callback and a list of guarded
    transitions), a current-state attribute and a generator, [task], that
    runs the machine.  [start] is [next(self.task_gen)] and [send] is
    [self.task_gen.send(value)].

    Python objects that the class handles are modelled as follows.
    - Data values ([pyval]): [None], booleans, integers and strings.  These
      are the values given as state identifiers and as inputs to [send].
    - Callables: functions from an argument list and a world to an outcome
      (a returned value or a raised exception) and a new world.  The world
      [W] is whatever state the callbacks of the embedding program act on;
      the callbacks do not touch the machine itself.
    - The generator object: one of three states (created, suspended at the
      [yield], closed).  At the [yield] the local [exec_state_func] is
      always [False], so a suspended generator carries no other data.
    - Every method is a computation in a state-and-exception monad over the
      machine object, the world and a ghost log of the callback
      invocations. *)

From Stdlib Require Import ZArith Lia.
From stdpp Require Import base option list strings gmap.

Local Open Scope Z_scope.

(** ** Values and exceptions *)

Inductive pyval : Type :=
| PNone
| PBool (b : bool)
| PInt (z : Z)
| PStr (s : string).

(** [isinstance(x, int)]: true of integers and, [bool] being a subclass of
    [int], of booleans.  The result is the number the value compares and
    hashes equal to, which is the key it denotes in a dict. *)
Definition as_int (x : pyval) : option Z :=
  match x with
  | PInt z => Some z
  | PBool true => Some 1
  | PBool false => Some 0
  | _ => None
  end.

(** Truth value of [x] in [if x:]. *)
Definition truthy (x : pyval) : bool :=
  match x with
  | PNone => false
  | PBool b => b
  | PInt z => negb (z =? 0)
  | PStr s => negb (String.eqb s "")
  end.

(** [a == b] on data values. *)
Definition py_eq (a b : pyval) : bool :=
  match as_int a, as_int b with
  | Some x, Some y => x =? y
  | _, _ =>
      match a, b with
      | PNone, PNone => true
      | PStr s, PStr t => String.eqb s t
      | _, _ => false
      end
  end.

(** The exception classes: the two of the module, the built-in ones that
    the dict and the generator raise, and any other class a callback may
    raise.  [KeyError] carries the missing key. *)
Inductive exn : Type :=
| StateDeclarationError
| TransitionDeclarationError
| KeyError (key : pyval)
| TypeError
| StopIteration
| RuntimeError
| OtherError (cls : string).

Inductive outcome : Type :=
| Return (v : pyval)
| Raise (e : exn).

(** State of the generator object [self.task_gen]. *)
Inductive gen_state : Type :=
| GenCreated
| GenSuspended
| GenClosed.

(** Ghost log: one event per callback invocation.  [EvEntry k] is the call
    [self.states[k]['func']()], [EvGuard k i v] the call of the condition of
    the [i]-th transition of state [k] on the value [v]. *)
Inductive event : Type :=
| EvEntry (sid : Z)
| EvGuard (origin : Z) (idx : nat) (arg : pyval).

Definition is_entry (e : event) : bool :=
  match e with EvEntry _ => true | EvGuard _ _ _ => false end.

Section Machine.

Variable W : Type.

Definition callable : Type := list pyval -> W -> outcome * W.

(** An argument of a method: a data value or a callable. *)
Inductive pyobj : Type :=
| Val (v : pyval)
| Fn (f : callable).

(** [callable(x)] *)
Definition as_callable (x : pyobj) : option callable :=
  match x with
  | Fn f => Some f
  | Val _ => None
  end.

(** ** The data of the class *)

(** [{'destiny_state': d, 'condition': c}] *)
Record Transition : Type := mkTransition {
  destiny_state : Z;
  condition : callable
}.

(** [{'func': f, 'transitions': [...]}] *)
Record State : Type := mkState {
  func : callable;
  transitions : list Transition
}.

Record FSM : Type := mkFSM {
  states : gmap Z State;
  current_state : Z;
  task_gen : gen_state
}.

(** The machine object, the world of the callbacks and the ghost log. *)
Record store : Type := mkStore {
  self : FSM;
  world : W;
  calls : list event
}.

Definition set_states (m : gmap Z State) (s : store) : store :=
  mkStore (mkFSM m (current_state (self s)) (task_gen (self s)))
          (world s) (calls s).

Definition set_current_state (k : Z) (s : store) : store :=
  mkStore (mkFSM (states (self s)) k (task_gen (self s)))
          (world s) (calls s).

Definition set_task_gen (g : gen_state) (s : store) : store :=
  mkStore (mkFSM (states (self s)) (current_state (self s)) g)
          (world s) (calls s).

(** ** The monad *)

Definition M (A : Type) : Type := store -> (exn + A) * store.

Definition ret {A} (a : A) : M A := fun s => (inr a, s).

Definition raise {A} (e : exn) : M A := fun s => (inl e, s).

Definition bind {A B} (m : M A) (k : A -> M B) : M B := fun s =>
  match m s with
  | (inr a, s') => k a s'
  | (inl e, s') => (inl e, s')
  end.

Definition get : M store := fun s => (inr s, s).

Definition modify (f : store -> store) : M unit := fun s => (inr tt, f s).

(** Calls [f] on the arguments [args]; the call is logged as [ev]. *)
Definition call (ev : event) (f : callable) (args : list pyval) : M pyval :=
  fun s =>
    let '(o, w) := f args (world s) in
    let s' := mkStore (self s) w (calls s ++ [ev]) in
    match o with
    | Return v => (inr v, s')
    | Raise e => (inl e, s')
    end.

End Machine.

Arguments Val {W} v.
Arguments Fn {W} f.
Arguments as_callable {W} x.
Arguments mkTransition {W} _ _.
Arguments destiny_state {W} _.
Arguments condition {W} _.
Arguments mkState {W} _ _.
Arguments func {W} _.
Arguments transitions {W} _.
Arguments mkFSM {W} _ _ _.
Arguments states {W} _.
Arguments current_state {W} _.
Arguments task_gen {W} _.
Arguments mkStore {W} _ _ _.
Arguments self {W} _.
Arguments world {W} _.
Arguments calls {W} _.
Arguments set_states {W} _ _.
Arguments set_current_state {W} _ _.
Arguments set_task_gen {W} _ _.
Arguments ret {W A} _ _.
Arguments raise {W A} _ _.
Arguments bind {W A B} _ _ _.
Arguments get {W} _.
Arguments modify {W} _ _.
Arguments call {W} _ _ _ _.

Declare Scope fsm_scope.
Delimit Scope fsm_scope with fsm.
Notation "'do' x <- m ; k" := (bind m (fun x => k))
  (at level 10, x name, m at level 100, k at level 200) : fsm_scope.
Notation "'run' m ; k" := (bind m (fun _ => k))
  (at level 10, m at level 100, k at level 200) : fsm_scope.
Local Open Scope fsm_scope.

Section Methods.

Context {W : Type}.

(** ** [__init__] *)

Definition init : FSM W := mkFSM ∅ 0 GenCreated.

(** [self.states[k]], raising [KeyError] on a missing key.  The key is
    reported as the integer it denotes. *)
Definition getitem_states (k : Z) : M W (State W) :=
  do s <- get;
  match states (self s) !! k with
  | Some st => ret st
  | None => raise (KeyError (PInt k))
  end.

(** ** [add_state] *)

Definition add_state (state_id : pyval) (callback : pyobj W) : M W unit :=
  match as_int state_id, as_callable callback with
  | Some k, Some f =>
      do s <- get;
      match states (self s) !! k with
      | Some _ => raise StateDeclarationError
      | None => modify (set_states (<[k := mkState f []]> (states (self s))))
      end
  | _, _ => raise StateDeclarationError
  end.

(** ** [del_state]: [del self.states[state_id]] *)

Definition del_state (state_id : pyval) : M W unit :=
  match as_int state_id with
  | Some k =>
      do s <- get;
      match states (self s) !! k with
      | Some _ => modify (set_states (delete k (states (self s))))
      | None => raise (KeyError state_id)
      end
  | None => raise (KeyError state_id)
  end.

(** ** [add_transition]

    The [KeyError] of an unregistered origin carries a message that names
    the origin; here it carries the origin. *)

Definition add_transition (origin_state destiny_state : pyval)
    (callback : pyobj W) : M W unit :=
  match as_int origin_state, as_int destiny_state, as_callable callback with
  | Some o, Some d, Some f =>
      do s <- get;
      match states (self s) !! o with
      | None => raise (KeyError origin_state)
      | Some st =>
          modify (set_states
            (<[o := mkState (func st) (transitions st ++ [mkTransition d f])]>
               (states (self s))))
      end
  | _, _, _ => raise StateDeclarationError
  end.

(** ** [task]

    The body of the generator, cut at its [yield].  [task_entry] is the
    [if exec_state_func:] block taken with the flag set; [task_for] is the
    [for] loop, which returns the new value of the flag; [task_to_yield]
    runs from the top of the [while] to the [yield].  The arguments [origin]
    and [idx] of [task_for] only label the events of the ghost log. *)

Definition task_entry : M W unit :=
  do s <- get;
  do st <- getitem_states (current_state (self s));
  run call (EvEntry (current_state (self s))) (func st) [];
  ret tt.

Definition task_to_yield (exec_state_func : bool) : M W unit :=
  if exec_state_func then task_entry else ret tt.

Fixpoint task_for (origin : Z) (idx : nat) (ts : list (Transition W))
    (value_to_transition : pyval) : M W bool :=
  match ts with
  | [] => ret false
  | transition :: rest =>
      do r <- call (EvGuard origin idx value_to_transition)
                (condition transition) [value_to_transition];
      if truthy r then
        run modify (set_current_state (destiny_state transition));
        ret true
      else task_for origin (S idx) rest value_to_transition
  end.

(** From the first line of [task] to the first [yield]. *)
Definition task_begin : M W unit :=
  run modify (set_current_state 0);
  task_to_yield true.

(** From a [yield] that receives [value_to_transition] to the next one. *)
Definition task_resume (value_to_transition : pyval) : M W unit :=
  do s <- get;
  do st <- getitem_states (current_state (self s));
  do exec_state_func <-
    task_for (current_state (self s)) 0 (transitions st) value_to_transition;
  task_to_yield exec_state_func.

(** ** The generator protocol *)

(** An exception that leaves the generator body: a [StopIteration] is
    replaced by a [RuntimeError] (PEP 479, Python 3.7 and later), any
    other passes through. *)
Definition gen_exn (e : exn) : exn :=
  match e with
  | StopIteration => RuntimeError
  | _ => e
  end.

(** Runs a piece of the body.  The body has no [return] and its loop no
    exit, so it ends at the [yield] (the generator is suspended again) or
    by an exception (the generator is closed). *)
Definition gen_run (body : M W unit) : M W unit := fun s =>
  match body s with
  | (inr _, s') => (inr tt, set_task_gen GenSuspended s')
  | (inl e, s') => (inl (gen_exn e), set_task_gen GenClosed s')
  end.

(** [self.task_gen.send(v)]; [next(self.task_gen)] is the same call with
    [None]. *)
Definition gen_send (v : pyval) : M W unit :=
  do s <- get;
  match task_gen (self s) with
  | GenCreated =>
      match v with
      | PNone => gen_run task_begin
      | _ => raise TypeError
      end
  | GenSuspended => gen_run (task_resume v)
  | GenClosed => raise StopIteration
  end.

(** ** [start] and [send] *)

Definition start : M W unit := gen_send PNone.

Definition send (value_to_send : pyval) : M W unit := gen_send value_to_send.

End Methods.

(** ** What the caller observes of one call *)

(** The exception a call raised, if any, and the store it left. *)
Definition raised {W A} (r : (exn + A) * store W) : option exn :=
  match fst r with
  | inl e => Some e
  | inr _ => None
  end.

Definition after {W A} (r : (exn + A) * store W) : store W := snd r.

(** The callback invocations made between the store [s] and a later
    store [s']. *)
Definition new_calls {W} (s s' : store W) : list event :=
  drop (length (calls s)) (calls s').

(** The machine has been started and its generator waits at the [yield]. *)
Definition started {W} (s : store W) : Prop :=
  task_gen (self s) = GenSuspended.

(** The log of the conditions number [from], ..., [from + n - 1] of the
    state [origin], called in that order on [v]. *)
Definition guard_events (origin : Z) (from n : nat) (v : pyval) : list event :=
  map (fun i => EvGuard origin i v) (seq from n).

Arguments guard_events : simpl never.

(** ** What the conditions of a state answer *)

Section Guards.

Context {W : Type}.

(** Every condition of [ts], called in order on [v] from the world [w],
    returns a false value; the calls leave the world [w']. *)
Inductive all_reject (v : pyval) : list (Transition W) -> W -> W -> Prop :=
| all_reject_nil w : all_reject v [] w w
| all_reject_cons t ts w w1 w2 r :
    condition t [v] w = (Return r, w1) ->
    truthy r = false ->
    all_reject v ts w1 w2 ->
    all_reject v (t :: ts) w w2.

(** The condition of [t], called on [v] in the world [w], returns a true
    value and leaves the world [w']. *)
Definition accepts (v : pyval) (t : Transition W) (w w' : W) : Prop :=
  exists r, condition t [v] w = (Return r, w') /\ truthy r = true.

End Guards.

(** ** A caller *)

Section Caller.

Context {W : Type}.

(** A call of one of the public methods. *)
Inductive method : Type :=
| AddState (state_id : pyval) (callback : pyobj W)
| DelState (state_id : pyval)
| AddTransition (origin_state destiny_state : pyval) (callback : pyobj W)
| Start
| Send (value_to_send : pyval).

Definition invoke (c : method) : M W unit :=
  match c with
  | AddState state_id callback => add_state state_id callback
  | DelState state_id => del_state state_id
  | AddTransition o d callback => add_transition o d callback
  | Start => start
  | Send v => send v
  end.

(** The calls that resume the generator. *)
Definition resumes (c : method) : bool :=
  match c with
  | Start | Send _ => true
  | _ => false
  end.

(** A caller that makes the calls one after the other, catches what each
    raises and goes on.  The result lists what each call raised. *)
Fixpoint script (cs : list method) (s : store W) : list (option exn) * store W :=
  match cs with
  | [] => ([], s)
  | c :: rest =>
      let r := invoke c s in
      let '(outs, s') := script rest (after r) in
      (raised r :: outs, s')
  end.

End Caller.

Arguments method W : clear implicits.

(** ** The program at the end of the module, and other small machines *)

Module Demo.

(** The callbacks act on the console: the world is the list of the lines
    printed so far. *)
Definition console : Type := list string.

(** [lambda: print(line)] *)
Definition say (line : string) : callable console :=
  fun args w =>
    match args with
    | [] => (Return PNone, w ++ [line])
    | _ => (Raise TypeError, w)
    end.

(** [lambda received_number: True if received_number == k else False] *)
Definition when_eq (k : Z) : callable console :=
  fun args w =>
    match args with
    | [received_number] =>
        (Return (PBool (if py_eq received_number (PInt k) then true else false)),
         w)
    | _ => (Raise TypeError, w)
    end.

(** [lambda _: b] *)
Definition always (b : bool) : callable console :=
  fun args w =>
    match args with
    | [_] => (Return (PBool b), w)
    | _ => (Raise TypeError, w)
    end.

(** [FSM()] in front of an empty console. *)
Definition fresh : store console := mkStore init [] [].

(** The six registrations of the module's program, with the markers A, B
    and C for the three printed lines. *)
Definition declare : M console unit :=
  run add_state (PInt 0) (Fn (say "A"));
  run add_state (PInt 1) (Fn (say "B"));
  run add_state (PInt 2) (Fn (say "C"));
  run add_transition (PInt 0) (PInt 1) (Fn (when_eq 2));
  run add_transition (PInt 1) (PInt 2) (Fn (when_eq 3));
  add_transition (PInt 2) (PInt 0) (Fn (when_eq 0)).

Definition machine : store console := after (declare fresh).

(** The program's machine after [start()]. *)
Definition running : store console := after (start machine).

(** The transitions of the machines below. *)
Definition t05 : Transition console := mkTransition 5 (always true).
Definition t00_never : Transition console := mkTransition 0 (always false).
Definition t01_always : Transition console := mkTransition 1 (always true).
Definition t02_always : Transition console := mkTransition 2 (always true).
Definition t00_on1 : Transition console := mkTransition 0 (when_eq 1).
Definition t01_on2 : Transition console := mkTransition 1 (when_eq 2).

(** State 0 alone, with a transition to the unregistered state 5; then
    started. *)
Definition dangling : store console :=
  after ((run add_state (PInt 0) (Fn (say "A"));
          run add_transition (PInt 0) (PInt 5) (Fn (always true));
          start) fresh).

(** State 0 alone, not started. *)
Definition unstarted : store console :=
  after (add_state (PInt 0) (Fn (say "A")) fresh).

(** State 0 alone, started. *)
Definition lone : store console := after (start unstarted).

(** State 0 with three transitions whose conditions are always false,
    always true and always true, and the states 1 and 2; started. *)
Definition three_guards : store console :=
  after ((run add_state (PInt 0) (Fn (say "A"));
          run add_state (PInt 1) (Fn (say "B"));
          run add_state (PInt 2) (Fn (say "C"));
          run add_transition (PInt 0) (PInt 0) (Fn (always false));
          run add_transition (PInt 0) (PInt 1) (Fn (always true));
          run add_transition (PInt 0) (PInt 2) (Fn (always true));
          start) fresh).

(** State 0 with a transition to itself; started. *)
Definition self_loop : store console :=
  after ((run add_state (PInt 0) (Fn (say "A"));
          run add_transition (PInt 0) (PInt 0) (Fn (when_eq 1));
          start) fresh).

End Demo.

(** ** Declaring several transitions of one state *)

Section Batch.

Context {W : Type}.

(** The calls [add_transition(origin, d, g)] for the pairs [(d, g)] of a
    list, in the order of the list. *)
Definition declare_transitions (origin : Z) (l : list (Z * callable W)) :
    list (method W) :=
  map (fun dg => AddTransition (PInt origin) (PInt (fst dg)) (Fn (snd dg))) l.

(** The transitions these calls declare. *)
Definition declared (l : list (Z * callable W)) : list (Transition W) :=
  map (fun dg => mkTransition (fst dg) (snd dg)) l.

End Batch.

(** ** Machines whose callbacks raise *)

Module Faulty.

Import Demo.

(** [lambda *args: raise cls()] *)
Definition throws (e : exn) : callable console :=
  fun _ w => (Raise e, w).

(** A condition that prints the value it is asked about, then raises
    [ValueError]. *)
Definition loud_failure : callable console :=
  fun args w =>
    match args with
    | [_] => (Raise (OtherError "ValueError"), w ++ ["asked"])
    | _ => (Raise TypeError, w)
    end.

Definition t01_fails : Transition console := mkTransition 1 loud_failure.

(** State 0 with three transitions whose conditions are always false,
    failing, always true, and the states 1 and 2; started. *)
Definition failing_guard : store console :=
  after ((run add_state (PInt 0) (Fn (say "A"));
          run add_state (PInt 1) (Fn (say "B"));
          run add_state (PInt 2) (Fn (say "C"));
          run add_transition (PInt 0) (PInt 0) (Fn (always false));
          run add_transition (PInt 0) (PInt 1) (Fn loud_failure);
          run add_transition (PInt 0) (PInt 2) (Fn (always true));
          start) fresh).

(** State 0 with a transition to state 1, whose entry callback raises
    [StopIteration]; started. *)
Definition failing_entry : store console :=
  after ((run add_state (PInt 0) (Fn (say "A"));
          run add_state (PInt 1) (Fn (throws StopIteration));
          run add_transition (PInt 0) (PInt 1) (Fn (always true));
          start) fresh).

End Faulty.

(** * Properties *)

(** ** The [for] loop *)

Section GuardFacts.

Context {W : Type}.
Implicit Types (w : W) (t : Transition W) (m : FSM W).
Implicit Types (ts pre rest post : list (Transition W)).

Lemma guard_events_S origin from n v :
  guard_events origin from (S n) v
  = EvGuard origin from v :: guard_events origin (S from) n v.
Proof. reflexivity. Qed.

Lemma guard_events_snoc origin from n v :
  guard_events origin from (S n) v
  = guard_events origin from n v ++ [EvGuard origin (from + n)%nat v].
Proof.
  unfold guard_events. rewrite seq_S, map_app. reflexivity.
Qed.

Lemma guard_events_no_entry origin from n v :
  List.filter is_entry (guard_events origin from n v) = [].
Proof.
  revert from. induction n as [|n IH]; intros from; [reflexivity|].
  rewrite guard_events_S. simpl. apply IH.
Qed.

(** The [for] loop over a rejecting prefix goes on with the rest. *)
Lemma task_for_reject v origin pre rest w w1 :
  all_reject v pre w w1 ->
  forall idx m c,
    task_for origin idx (pre ++ rest) v (mkStore m w c)
    = task_for origin (idx + length pre)%nat rest v
        (mkStore m w1 (c ++ guard_events origin idx (length pre) v)).
Proof.
  induction 1 as [w|t ts w w1 w2 r Hc Hr _ IH]; intros idx m c.
  - simpl. rewrite Nat.add_0_r, app_nil_r. reflexivity.
  - simpl. unfold bind at 1, call at 1. simpl. rewrite Hc, Hr.
    rewrite IH. rewrite guard_events_S, <- app_assoc. simpl.
    replace (idx + S (length ts))%nat with (S (idx + length ts)) by lia.
    reflexivity.
Qed.

(** The [for] loop breaks at an accepting transition. *)
Lemma task_for_accept v origin idx t post m w w' c :
  accepts v t w w' ->
  task_for origin idx (t :: post) v (mkStore m w c)
  = (inr true,
     mkStore (mkFSM (states m) (destiny_state t) (task_gen m)) w'
             (c ++ [EvGuard origin idx v])).
Proof.
  intros (r & Hc & Hr). simpl. unfold bind at 1, call at 1. simpl.
  rewrite Hc, Hr. reflexivity.
Qed.

Lemma task_for_first_match v origin pre t post m w w1 w2 c :
  all_reject v pre w w1 ->
  accepts v t w1 w2 ->
  task_for origin 0 (pre ++ t :: post) v (mkStore m w c)
  = (inr true,
     mkStore (mkFSM (states m) (destiny_state t) (task_gen m)) w2
             (c ++ guard_events origin 0 (S (length pre)) v)).
Proof.
  intros Hrej Hacc.
  rewrite (task_for_reject _ _ _ _ _ _ Hrej).
  rewrite (task_for_accept _ _ _ _ _ _ _ _ _ Hacc).
  rewrite guard_events_snoc, <- app_assoc. reflexivity.
Qed.

Lemma task_for_no_match v origin ts m w w1 c :
  all_reject v ts w w1 ->
  task_for origin 0 ts v (mkStore m w c)
  = (inr false, mkStore m w1 (c ++ guard_events origin 0 (length ts) v)).
Proof.
  intros Hrej.
  rewrite <- (app_nil_r ts) at 1.
  rewrite (task_for_reject _ _ _ _ _ _ Hrej). reflexivity.
Qed.


End GuardFacts.

(** ** One [send] on a started machine *)

Section Send.

Context {W : Type}.
Implicit Types (s : store W) (v : pyval) (st : State W) (t : Transition W).

Ltac open_store s :=
  destruct s as [[? ? ?] ? ?]; unfold started in *; simpl in *; subst.

Ltac step_send :=
  unfold send, start, gen_send, gen_run, task_resume, task_begin,
    task_to_yield, task_entry, getitem_states, bind, get, modify, raise, ret,
    call; simpl.

(** The current state is not in the registry: the subscript at the head of
    the [for] loop raises. *)
Lemma send_current_missing s v :
  started s ->
  states (self s) !! current_state (self s) = None ->
  send v s
  = (inl (KeyError (PInt (current_state (self s)))), set_task_gen GenClosed s).
Proof.
  intros Hs Hcur. open_store s. step_send. rewrite Hcur. reflexivity.
Qed.

(** No condition accepts the value. *)
Lemma send_no_match_eq s v st w1 :
  started s ->
  states (self s) !! current_state (self s) = Some st ->
  all_reject v (transitions st) (world s) w1 ->
  send v s
  = (inr tt,
     mkStore (self s) w1
       (calls s ++
        guard_events (current_state (self s)) 0 (length (transitions st)) v)).
Proof.
  intros Hs Hcur Hrej. open_store s. step_send. rewrite Hcur.
  rewrite (task_for_no_match _ _ _ _ _ _ _ Hrej). reflexivity.
Qed.

(** A transition fires and its destination is not in the registry. *)
Lemma send_fire_dangling s v st pre t post w1 w2 :
  started s ->
  states (self s) !! current_state (self s) = Some st ->
  transitions st = pre ++ t :: post ->
  all_reject v pre (world s) w1 ->
  accepts v t w1 w2 ->
  states (self s) !! destiny_state t = None ->
  send v s
  = (inl (KeyError (PInt (destiny_state t))),
     mkStore (mkFSM (states (self s)) (destiny_state t) GenClosed) w2
       (calls s ++
        guard_events (current_state (self s)) 0 (S (length pre)) v)).
Proof.
  intros Hs Hcur Hts Hrej Hacc Hdst. open_store s. step_send.
  rewrite Hcur, Hts.
  rewrite (task_for_first_match _ _ _ _ post _ _ _ _ _ Hrej Hacc). simpl.
  rewrite Hdst. reflexivity.
Qed.

(** A transition fires and its destination is in the registry. *)
Lemma send_fire_registered s v st pre t post w1 w2 dst :
  started s ->
  states (self s) !! current_state (self s) = Some st ->
  transitions st = pre ++ t :: post ->
  all_reject v pre (world s) w1 ->
  accepts v t w1 w2 ->
  states (self s) !! destiny_state t = Some dst ->
  send v s
  = (match fst (func dst [] w2) with
     | Return _ => inr tt
     | Raise e => inl (gen_exn e)
     end,
     mkStore
       (mkFSM (states (self s)) (destiny_state t)
          (match fst (func dst [] w2) with
           | Return _ => GenSuspended
           | Raise _ => GenClosed
           end))
       (snd (func dst [] w2))
       (calls s ++
        guard_events (current_state (self s)) 0 (S (length pre)) v ++
        [EvEntry (destiny_state t)])).
Proof.
  intros Hs Hcur Hts Hrej Hacc Hdst. open_store s. step_send.
  rewrite Hcur, Hts.
  rewrite (task_for_first_match _ _ _ _ post _ _ _ _ _ Hrej Hacc). simpl.
  rewrite Hdst. simpl.
  destruct (func dst [] w2) as [[r|e] w3]; simpl;
    rewrite <- app_assoc; reflexivity.
Qed.

Lemma new_calls_app s m w l :
  new_calls s (mkStore m w (calls s ++ l)) = l.
Proof. unfold new_calls. simpl. apply drop_app_length. Qed.

Lemma elem_of_guard_events origin from n v e :
  e ∈ guard_events origin from n v ->
  exists j, e = EvGuard origin j v /\ (from <= j < from + n)%nat.
Proof.
  unfold guard_events. intros (j & -> & Hj)%list_elem_of_fmap.
  exists j. split; [reflexivity|]. apply elem_of_seq in Hj. lia.
Qed.

End Send.

Section SendClaims.

Context {W : Type}.
Implicit Types (s : store W) (v : pyval) (st : State W) (t : Transition W).

(** C1 (as amended).  On a started machine, when the first transition of
    the current state whose condition accepts the input leads to an
    identifier that is not in the registry, [send] raises [KeyError] with
    that identifier, and the current-state attribute has already been set
    to it; the generator is closed, the registry is as it was and no entry
    callback has been called. *)
Theorem send_dangling_destination s v st pre t post w1 w2 :
  started s ->
  states (self s) !! current_state (self s) = Some st ->
  transitions st = pre ++ t :: post ->
  all_reject v pre (world s) w1 ->
  accepts v t w1 w2 ->
  states (self s) !! destiny_state t = None ->
  raised (send v s) = Some (KeyError (PInt (destiny_state t))) /\
  current_state (self (after (send v s))) = destiny_state t /\
  task_gen (self (after (send v s))) = GenClosed /\
  states (self (after (send v s))) = states (self s) /\
  List.filter is_entry (new_calls s (after (send v s))) = [].
Proof.
  intros Hs Hcur Hts Hrej Hacc Hdst.
  rewrite (send_fire_dangling s v st pre t post w1 w2) by assumption.
  unfold raised, after; cbn [fst snd self world calls current_state task_gen states]. repeat split.
  rewrite new_calls_app.
  apply guard_events_no_entry.
Qed.

(** C3.  On a started machine whose current state has the transitions
    [pre ++ t :: post], where every condition of [pre] returns a false
    value on the input and the condition of [t] a true one, [send] sets the
    current state to the destination of [t]; the conditions it calls are
    those of [pre] and of [t], in the order of registration, and no
    condition of [post] is called. *)
Theorem send_first_match_wins s v st pre t post w1 w2 :
  started s ->
  states (self s) !! current_state (self s) = Some st ->
  transitions st = pre ++ t :: post ->
  all_reject v pre (world s) w1 ->
  accepts v t w1 w2 ->
  current_state (self (after (send v s))) = destiny_state t /\
  new_calls s (after (send v s))
  = guard_events (current_state (self s)) 0 (S (length pre)) v ++
    match states (self s) !! destiny_state t with
    | Some _ => [EvEntry (destiny_state t)]
    | None => []
    end /\
  forall origin j a,
    EvGuard origin j a ∈ new_calls s (after (send v s)) ->
    (j <= length pre)%nat.
Proof.
  intros Hs Hcur Hts Hrej Hacc.
  assert (Hlog : forall l, (forall e, e ∈ l -> is_entry e = true) ->
    forall origin j a,
      EvGuard origin j a
        ∈ guard_events (current_state (self s)) 0 (S (length pre)) v ++ l ->
      (j <= length pre)%nat).
  { intros l Hl origin j a [Hin|Hin]%elem_of_app.
    - apply elem_of_guard_events in Hin as (j' & [= _ -> _] & Hj). lia.
    - apply Hl in Hin. discriminate. }
  destruct (states (self s) !! destiny_state t) as [dst|] eqn:Hdst.
  - rewrite (send_fire_registered s v st pre t post w1 w2 dst) by assumption.
    unfold after; cbn [fst snd self world calls current_state task_gen states]. rewrite new_calls_app.
    repeat split. apply Hlog.
    intros e ->%list_elem_of_singleton. reflexivity.
  - rewrite (send_fire_dangling s v st pre t post w1 w2) by assumption.
    unfold after; cbn [fst snd self world calls current_state task_gen states].
    rewrite new_calls_app, app_nil_r.
    repeat split. rewrite <- (app_nil_r (guard_events _ _ _ _)). apply Hlog. intros e Hin. inversion Hin.
Qed.

(** C4.  On a started machine whose current state is registered, an input
    on which every condition of the current state returns a false value
    makes [send] return normally; the machine object (registry, current
    state, suspended generator) is unchanged and no entry callback is
    called: the only calls are those of the conditions. *)
Theorem send_no_match s v st w1 :
  started s ->
  states (self s) !! current_state (self s) = Some st ->
  all_reject v (transitions st) (world s) w1 ->
  raised (send v s) = None /\
  self (after (send v s)) = self s /\
  current_state (self (after (send v s))) = current_state (self s) /\
  started (after (send v s)) /\
  List.filter is_entry (new_calls s (after (send v s))) = [] /\
  new_calls s (after (send v s))
  = guard_events (current_state (self s)) 0 (length (transitions st)) v.
Proof.
  intros Hs Hcur Hrej.
  rewrite (send_no_match_eq s v st w1) by assumption.
  unfold raised, after; cbn [fst snd self world calls current_state task_gen states]. rewrite new_calls_app.
  repeat split; try assumption. apply guard_events_no_entry.
Qed.

(** C5.  On a started machine, when a transition fires towards a
    registered state (which may be the current state itself), the [send]
    calls the entry callback of that state once, after the conditions: the
    log of the call gains one entry event, the world is the one the
    callback leaves, and [send] returns when the callback returns (then the
    generator waits at the [yield] again). *)
Theorem send_entry_once s v st pre t post w1 w2 dst :
  started s ->
  states (self s) !! current_state (self s) = Some st ->
  transitions st = pre ++ t :: post ->
  all_reject v pre (world s) w1 ->
  accepts v t w1 w2 ->
  states (self s) !! destiny_state t = Some dst ->
  new_calls s (after (send v s))
  = guard_events (current_state (self s)) 0 (S (length pre)) v ++
    [EvEntry (destiny_state t)] /\
  List.filter is_entry (new_calls s (after (send v s)))
  = [EvEntry (destiny_state t)] /\
  world (after (send v s)) = snd (func dst [] w2) /\
  current_state (self (after (send v s))) = destiny_state t /\
  forall r, fst (func dst [] w2) = Return r ->
    raised (send v s) = None /\ started (after (send v s)).
Proof.
  intros Hs Hcur Hts Hrej Hacc Hdst.
  rewrite (send_fire_registered s v st pre t post w1 w2 dst) by assumption.
  unfold raised, after, started; cbn [fst snd self world calls current_state task_gen states].
  rewrite new_calls_app.
  split; [reflexivity|]. split.
  { rewrite List.filter_app, guard_events_no_entry. reflexivity. }
  split; [reflexivity|]. split; [reflexivity|].
  intros r Hr. rewrite Hr. split; reflexivity.
Qed.

End SendClaims.

Section RegistryClaims.

Context {W : Type}.
Implicit Types (s : store W) (v : pyval) (st : State W).

Ltac open_method :=
  unfold add_state, add_transition, del_state, bind, get, modify, raise, ret;
  simpl.

(** C2 (as amended).  When the origin or the destination is not an integer
    or the callback is not callable, [add_transition] raises
    [StateDeclarationError], the exception class its docstring names, and
    leaves the store, hence every transition list, as it was. *)
Theorem add_transition_bad_arguments s origin_state destiny_state callback :
  as_int origin_state = None \/ as_int destiny_state = None \/
    as_callable callback = None ->
  add_transition origin_state destiny_state callback s
  = (inl StateDeclarationError, s).
Proof.
  intros [H|[H|H]]; unfold add_transition; rewrite H;
    repeat case_match; reflexivity.
Qed.

Lemma add_state_atomic s state_id callback e :
  raised (add_state state_id callback s) = Some e ->
  after (add_state state_id callback s) = s.
Proof.
  open_method. repeat case_match; simpl; (reflexivity || discriminate).
Qed.

Lemma add_transition_atomic s origin_state destiny_state callback e :
  raised (add_transition origin_state destiny_state callback s) = Some e ->
  after (add_transition origin_state destiny_state callback s) = s.
Proof.
  open_method. repeat case_match; simpl; (reflexivity || discriminate).
Qed.

Lemma del_state_atomic s state_id e :
  raised (del_state state_id s) = Some e ->
  after (del_state state_id s) = s.
Proof.
  open_method. repeat case_match; simpl; (reflexivity || discriminate).
Qed.

(** C6.  [add_state] with an identifier that is already in the registry
    raises [StateDeclarationError] and leaves the store as it was, so the
    state registered first keeps its callback and its transitions; and
    whenever [add_state], [add_transition] or [del_state] raises, the store
    is the one before the call. *)
Theorem add_state_duplicate s state_id callback k st :
  as_int state_id = Some k ->
  states (self s) !! k = Some st ->
  add_state state_id callback s = (inl StateDeclarationError, s) /\
  states (self (after (add_state state_id callback s))) !! k = Some st /\
  (forall i c e, raised (add_state i c s) = Some e ->
     after (add_state i c s) = s) /\
  (forall o d c e, raised (add_transition o d c s) = Some e ->
     after (add_transition o d c s) = s) /\
  (forall i e, raised (del_state i s) = Some e ->
     after (del_state i s) = s).
Proof.
  intros Hk Hst.
  assert (E : add_state state_id callback s = (inl StateDeclarationError, s)).
  { unfold add_state. rewrite Hk. destruct (as_callable callback).
    - unfold bind, get. simpl. rewrite Hst. reflexivity.
    - reflexivity. }
  split; [exact E|]. split; [rewrite E; exact Hst|].
  split; [apply add_state_atomic|].
  split; [apply add_transition_atomic|apply del_state_atomic].
Qed.

(** [add_transition] with a registered origin appends the transition,
    whatever the destination. *)
Lemma add_transition_appends s origin_state destiny_state g o d st :
  as_int origin_state = Some o ->
  as_int destiny_state = Some d ->
  states (self s) !! o = Some st ->
  add_transition origin_state destiny_state (Fn g) s
  = (inr tt,
     set_states
       (<[o := mkState (func st) (transitions st ++ [mkTransition d g])]>
          (states (self s))) s).
Proof.
  intros Ho Hd Hst. unfold add_transition. rewrite Ho, Hd.
  unfold bind, get, modify. simpl. rewrite Hst. reflexivity.
Qed.

Lemma add_state_inserts s state_id f k :
  as_int state_id = Some k ->
  states (self s) !! k = None ->
  add_state state_id (Fn f) s
  = (inr tt, set_states (<[k := mkState f []]> (states (self s))) s).
Proof.
  intros Hk Hnone. unfold add_state. rewrite Hk.
  unfold bind, get, modify. simpl. rewrite Hnone. reflexivity.
Qed.

(** C7.  With a registered origin, [add_transition] returns normally and
    appends the transition even when the destination is not registered.
    If the machine is started and in the origin state, and the destination
    is registered next, a [send] whose input the earlier conditions reject
    and the new condition accepts moves the machine to the destination and
    calls its entry callback; it returns normally when the callback does. *)
Theorem forward_reference s origin destiny o d g f st :
  as_int origin = Some o ->
  as_int destiny = Some d ->
  states (self s) !! o = Some st ->
  states (self s) !! d = None ->
  let s1 := after (add_transition origin destiny (Fn g) s) in
  let s2 := after (add_state destiny (Fn f) s1) in
  raised (add_transition origin destiny (Fn g) s) = None /\
  states (self s1) !! o
  = Some (mkState (func st) (transitions st ++ [mkTransition d g])) /\
  states (self s1) !! d = None /\
  raised (add_state destiny (Fn f) s1) = None /\
  forall v w1 w2,
    started s ->
    current_state (self s) = o ->
    all_reject v (transitions st) (world s) w1 ->
    accepts v (mkTransition d g) w1 w2 ->
    current_state (self (after (send v s2))) = d /\
    new_calls s2 (after (send v s2))
    = guard_events o 0 (S (length (transitions st))) v ++ [EvEntry d] /\
    world (after (send v s2)) = snd (f [] w2) /\
    forall r, fst (f [] w2) = Return r ->
      raised (send v s2) = None /\ started (after (send v s2)).
Proof.
  intros Ho Hd Hst Hnone s1 s2.
  assert (Hne : o <> d) by congruence.
  assert (E1 : s1 = set_states
    (<[o := mkState (func st) (transitions st ++ [mkTransition d g])]>
       (states (self s))) s).
  { subst s1. rewrite (add_transition_appends s _ _ g o d st) by assumption.
    reflexivity. }
  assert (H1o : states (self s1) !! o
    = Some (mkState (func st) (transitions st ++ [mkTransition d g]))).
  { rewrite E1. simpl. apply lookup_insert_eq. }
  assert (H1d : states (self s1) !! d = None).
  { rewrite E1. simpl. rewrite lookup_insert_ne by exact Hne. exact Hnone. }
  assert (E2 : add_state destiny (Fn f) s1
    = (inr tt, set_states (<[d := mkState f []]> (states (self s1))) s1)).
  { apply add_state_inserts; assumption. }
  split.
  { rewrite (add_transition_appends s _ _ g o d st) by assumption.
    reflexivity. }
  split; [exact H1o|]. split; [exact H1d|].
  split; [rewrite E2; reflexivity|].
  intros v w1 w2 Hs Hcur Hrej Hacc.
  assert (E3 : s2 = set_states (<[d := mkState f []]> (states (self s1))) s1).
  { subst s2. rewrite E2. reflexivity. }
  assert (H2s : started s2).
  { rewrite E3, E1. exact Hs. }
  assert (H2c : current_state (self s2) = o).
  { rewrite E3, E1. exact Hcur. }
  assert (H2w : world s2 = world s).
  { rewrite E3, E1. reflexivity. }
  assert (H2o : states (self s2) !! current_state (self s2)
    = Some (mkState (func st) (transitions st ++ [mkTransition d g]))).
  { rewrite H2c, E3. simpl. rewrite lookup_insert_ne by congruence.
    exact H1o. }
  assert (H2d : states (self s2) !! d = Some (mkState f [])).
  { rewrite E3. simpl. apply lookup_insert_eq. }
  rewrite <- H2w in Hrej.
  rewrite (send_fire_registered s2 v _ (transitions st) (mkTransition d g) []
             w1 w2 (mkState f []) H2s H2o eq_refl Hrej Hacc H2d).
  rewrite H2c.
  unfold raised, after, started;
    cbn [fst snd self world calls current_state task_gen destiny_state func].
  rewrite new_calls_app.
  split; [reflexivity|]. split; [reflexivity|]. split; [reflexivity|].
  intros r Hr. rewrite Hr. split; reflexivity.
Qed.

End RegistryClaims.

Section LifecycleClaims.

Context {W : Type}.
Implicit Types (s : store W) (v : pyval) (st : State W).

(** C8 (as amended).  On a machine whose generator has not been started,
    [send] with any value other than [None] raises the [TypeError] of a
    just-started generator and leaves the store as it was.  [send(None)] is
    the call that [start] makes: when state 0 is registered it calls the
    entry callback of state 0 and, if this returns, returns normally with
    the machine started. *)
Theorem send_before_start s v :
  task_gen (self s) = GenCreated ->
  (v <> PNone -> send v s = (inl TypeError, s)) /\
  send PNone s = start s /\
  forall st0, states (self s) !! 0 = Some st0 ->
    send PNone s
    = (match fst (func st0 [] (world s)) with
       | Return _ => inr tt
       | Raise e => inl (gen_exn e)
       end,
       mkStore
         (mkFSM (states (self s)) 0
            (match fst (func st0 [] (world s)) with
             | Return _ => GenSuspended
             | Raise _ => GenClosed
             end))
         (snd (func st0 [] (world s)))
         (calls s ++ [EvEntry 0])).
Proof.
  intros Hg. destruct s as [[m cs g] w c]. simpl in *. subst g.
  split; [|split].
  - intros Hv. unfold send, gen_send, bind, get, raise. simpl.
    destruct v; [contradiction|reflexivity..].
  - reflexivity.
  - intros st0 H0.
    unfold send, gen_send, gen_run, task_begin, task_to_yield, task_entry,
      getitem_states, bind, get, modify, raise, ret, call. simpl.
    rewrite H0. simpl.
    destruct (func st0 [] w) as [[r|e] w']; reflexivity.
Qed.

(** Once the generator is closed, no call reopens it: the calls that
    resume it raise [StopIteration], and no call touches the current state,
    the world or the log. *)
Lemma invoke_closed s (c : method W) :
  task_gen (self s) = GenClosed ->
  task_gen (self (after (invoke c s))) = GenClosed /\
  current_state (self (after (invoke c s))) = current_state (self s) /\
  world (after (invoke c s)) = world s /\
  calls (after (invoke c s)) = calls s /\
  (resumes c = true -> raised (invoke c s) = Some StopIteration).
Proof.
  intros Hg. destruct s as [[m cs g] w l]. simpl in *. subst g.
  destruct c; simpl;
    unfold add_state, add_transition, del_state, start, send, gen_send,
      bind, get, modify, raise, ret; simpl;
    repeat case_match; simpl; repeat split; (reflexivity || discriminate).
Qed.

Lemma script_closed (cs : list (method W)) : forall s,
  task_gen (self s) = GenClosed ->
  task_gen (self (snd (script cs s))) = GenClosed /\
  current_state (self (snd (script cs s))) = current_state (self s) /\
  world (snd (script cs s)) = world s /\
  calls (snd (script cs s)) = calls s /\
  forall i c, cs !! i = Some c -> resumes c = true ->
    fst (script cs s) !! i = Some (Some StopIteration).
Proof.
  induction cs as [|c cs IH]; intros s Hg.
  - simpl. split; [exact Hg|]. do 3 (split; [reflexivity|]).
    intros i c H. rewrite lookup_nil in H. discriminate.
  - destruct (invoke_closed s c Hg) as (Hg' & Hc' & Hw' & Hl' & Hr').
    destruct (IH _ Hg') as (IHg & IHc & IHw & IHl & IHr).
    simpl. destruct (script cs (after (invoke c s))) as [outs s'] eqn:E.
    simpl in *.
    split; [exact IHg|]. split; [congruence|]. split; [congruence|].
    split; [congruence|].
    intros [|i] c'; simpl.
    + intros [= <-] Hres. rewrite (Hr' Hres). reflexivity.
    + apply IHr.
Qed.

Lemma send_started s v :
  started s -> send v s = gen_run (task_resume v) s.
Proof.
  unfold started, send, gen_send, bind, get. simpl. intros ->. reflexivity.
Qed.

(** Any exception that leaves a [send] on a started machine closes the
    generator. *)
Lemma send_raise_closes s v e :
  started s ->
  raised (send v s) = Some e ->
  task_gen (self (after (send v s))) = GenClosed.
Proof.
  intros Hs. rewrite (send_started s v Hs).
  unfold gen_run, raised, after.
  destruct (task_resume v s) as [[e'|u] s']; simpl;
    [reflexivity|discriminate].
Qed.

(** C10.  When a [send] on a started machine has raised (as it does when
    the destination of the fired transition, or the current state, is not
    in the registry), the generator is closed for good: whatever the caller
    does next (registering the missing state included), every later [start]
    and [send] raises [StopIteration], and none of them calls a callback or
    changes the current state. *)
Theorem send_failure_is_permanent s v e (cs : list (method W)) :
  started s ->
  raised (send v s) = Some e ->
  task_gen (self (after (send v s))) = GenClosed /\
  task_gen (self (snd (script cs (after (send v s))))) = GenClosed /\
  current_state (self (snd (script cs (after (send v s)))))
  = current_state (self (after (send v s))) /\
  world (snd (script cs (after (send v s)))) = world (after (send v s)) /\
  calls (snd (script cs (after (send v s)))) = calls (after (send v s)) /\
  forall i c, cs !! i = Some c -> resumes c = true ->
    fst (script cs (after (send v s))) !! i = Some (Some StopIteration).
Proof.
  intros Hs Hr.
  pose proof (send_raise_closes s v e Hs Hr) as Hg.
  split; [exact Hg|]. apply script_closed. exact Hg.
Qed.

End LifecycleClaims.

(** ** The claims on the small machines *)

(** C1, instance: state 0 alone with a transition to state 5. *)
Lemma send_dangling_destination_witness :
  raised (send (PInt 7) Demo.dangling) = Some (KeyError (PInt 5)) /\
  current_state (self (after (send (PInt 7) Demo.dangling))) = 5 /\
  task_gen (self (after (send (PInt 7) Demo.dangling))) = GenClosed /\
  states (self (after (send (PInt 7) Demo.dangling)))
  = states (self Demo.dangling) /\
  List.filter is_entry
    (new_calls Demo.dangling (after (send (PInt 7) Demo.dangling))) = [].
Proof.
  apply (send_dangling_destination Demo.dangling (PInt 7)
           (mkState (Demo.say "A") [Demo.t05]) [] Demo.t05 [] ["A"] ["A"]).
  - reflexivity.
  - reflexivity.
  - reflexivity.
  - apply all_reject_nil.
  - exists (PBool true). split; reflexivity.
  - reflexivity.
Defined.

(** C1 as stated fails: with state 0 alone, a transition from 0 to 5 and
    an input that the condition accepts, [send] raises [KeyError] and the
    current state, which was 0, is 5. *)
Lemma send_dangling_moves_current_state :
  started Demo.dangling /\
  current_state (self Demo.dangling) = 0 /\
  states (self Demo.dangling) !! 5 = None /\
  raised (send (PInt 7) Demo.dangling) = Some (KeyError (PInt 5)) /\
  current_state (self (after (send (PInt 7) Demo.dangling))) = 5 /\
  current_state (self (after (send (PInt 7) Demo.dangling)))
  <> current_state (self Demo.dangling).
Proof.
  repeat split; try reflexivity. vm_compute. discriminate.
Qed.

(** C2, instance: a string as origin. *)
Lemma add_transition_bad_arguments_witness :
  add_transition (PStr "zero") (PInt 1) (Fn (Demo.always true)) Demo.unstarted
  = (inl StateDeclarationError, Demo.unstarted).
Proof.
  apply (add_transition_bad_arguments Demo.unstarted (PStr "zero") (PInt 1)
           (Fn (Demo.always true))).
  left. reflexivity.
Defined.

(** C2 as stated fails: with a string as origin, [add_transition] raises
    [StateDeclarationError], which is not [TransitionDeclarationError]. *)
Lemma add_transition_raises_state_error :
  as_int (PStr "zero") = None /\
  raised (add_transition (PStr "zero") (PInt 1) (Fn (Demo.always true))
            Demo.unstarted)
  = Some StateDeclarationError /\
  raised (add_transition (PStr "zero") (PInt 1) (Fn (Demo.always true))
            Demo.unstarted)
  <> Some TransitionDeclarationError.
Proof.
  repeat split; try reflexivity. vm_compute. discriminate.
Qed.

(** C3, instance: conditions always false, always true, always true on
    state 0; the third is not called. *)
Lemma send_first_match_wins_witness :
  current_state (self (after (send (PInt 9) Demo.three_guards))) = 1 /\
  new_calls Demo.three_guards (after (send (PInt 9) Demo.three_guards))
  = guard_events 0 0 2 (PInt 9) ++ [EvEntry 1] /\
  forall origin j a,
    EvGuard origin j a
      ∈ new_calls Demo.three_guards (after (send (PInt 9) Demo.three_guards)) ->
    (j <= 1)%nat.
Proof.
  apply (send_first_match_wins Demo.three_guards (PInt 9)
           (mkState (Demo.say "A")
              [Demo.t00_never; Demo.t01_always; Demo.t02_always])
           [Demo.t00_never] Demo.t01_always [Demo.t02_always] ["A"] ["A"]).
  - reflexivity.
  - reflexivity.
  - reflexivity.
  - eapply all_reject_cons.
    + reflexivity.
    + reflexivity.
    + apply all_reject_nil.
  - exists (PBool true). split; reflexivity.
Defined.

(** C4, instance: the program's machine in state 0 receives 3. *)
Lemma send_no_match_witness :
  raised (send (PInt 3) Demo.running) = None /\
  self (after (send (PInt 3) Demo.running)) = self Demo.running /\
  current_state (self (after (send (PInt 3) Demo.running)))
  = current_state (self Demo.running) /\
  started (after (send (PInt 3) Demo.running)) /\
  List.filter is_entry
    (new_calls Demo.running (after (send (PInt 3) Demo.running))) = [] /\
  new_calls Demo.running (after (send (PInt 3) Demo.running))
  = guard_events 0 0 1 (PInt 3).
Proof.
  apply (send_no_match Demo.running (PInt 3)
           (mkState (Demo.say "A") [Demo.t01_on2]) ["A"]).
  - reflexivity.
  - reflexivity.
  - eapply all_reject_cons.
    + reflexivity.
    + reflexivity.
    + apply all_reject_nil.
Defined.

(** C5, instance: state 0 re-entered from itself. *)
Lemma send_entry_once_witness :
  new_calls Demo.self_loop (after (send (PInt 1) Demo.self_loop))
  = guard_events 0 0 1 (PInt 1) ++ [EvEntry 0] /\
  List.filter is_entry
    (new_calls Demo.self_loop (after (send (PInt 1) Demo.self_loop)))
  = [EvEntry 0] /\
  world (after (send (PInt 1) Demo.self_loop)) = ["A"; "A"] /\
  current_state (self (after (send (PInt 1) Demo.self_loop))) = 0 /\
  raised (send (PInt 1) Demo.self_loop) = None /\
  started (after (send (PInt 1) Demo.self_loop)).
Proof.
  destruct (send_entry_once Demo.self_loop (PInt 1)
              (mkState (Demo.say "A") [Demo.t00_on1]) [] Demo.t00_on1 []
              ["A"] ["A"] (mkState (Demo.say "A") [Demo.t00_on1]))
    as (Hcalls & Hentry & Hworld & Hcur & Hret).
  - reflexivity.
  - reflexivity.
  - reflexivity.
  - apply all_reject_nil.
  - exists (PBool true). split; reflexivity.
  - reflexivity.
  - destruct (Hret PNone eq_refl) as [Hraised Hstarted].
    repeat split; assumption.
Defined.

(** C6, instance: state 0 registered twice. *)
Lemma add_state_duplicate_witness :
  add_state (PInt 0) (Fn (Demo.say "B")) Demo.unstarted
  = (inl StateDeclarationError, Demo.unstarted) /\
  states (self (after (add_state (PInt 0) (Fn (Demo.say "B")) Demo.unstarted)))
    !! 0
  = Some (mkState (Demo.say "A") []).
Proof.
  destruct (add_state_duplicate Demo.unstarted (PInt 0) (Fn (Demo.say "B")) 0
              (mkState (Demo.say "A") []))
    as (Hraise & Hkeep & _).
  - reflexivity.
  - reflexivity.
  - split; assumption.
Defined.

(** C7, instance: the transition from 0 to 5 is added before state 5. *)
Lemma forward_reference_witness :
  let s1 := after (add_transition (PInt 0) (PInt 5) (Fn (Demo.always true))
                     Demo.lone) in
  let s2 := after (add_state (PInt 5) (Fn (Demo.say "F")) s1) in
  raised (add_transition (PInt 0) (PInt 5) (Fn (Demo.always true)) Demo.lone)
  = None /\
  states (self s1) !! 5 = None /\
  raised (add_state (PInt 5) (Fn (Demo.say "F")) s1) = None /\
  raised (send (PInt 7) s2) = None /\
  current_state (self (after (send (PInt 7) s2))) = 5 /\
  new_calls s2 (after (send (PInt 7) s2))
  = guard_events 0 0 1 (PInt 7) ++ [EvEntry 5] /\
  world (after (send (PInt 7) s2)) = ["A"; "F"].
Proof.
  destruct (forward_reference Demo.lone (PInt 0) (PInt 5) 0 5
              (Demo.always true) (Demo.say "F") (mkState (Demo.say "A") []))
    as (Hadd & _ & Hnone & Hreg & Hsend).
  - reflexivity.
  - reflexivity.
  - reflexivity.
  - reflexivity.
  - destruct (Hsend (PInt 7) ["A"] ["A"]) as (Hcur & Hcalls & Hworld & Hret).
    + reflexivity.
    + reflexivity.
    + apply all_reject_nil.
    + exists (PBool true). split; reflexivity.
    + destruct (Hret PNone eq_refl) as [Hraised _].
      repeat split; assumption.
Defined.

(** C8, instance: [send(2)] before [start()]. *)
Lemma send_before_start_witness :
  send (PInt 2) Demo.unstarted = (inl TypeError, Demo.unstarted).
Proof.
  destruct (send_before_start Demo.unstarted (PInt 2)) as (Hsome & _).
  - reflexivity.
  - apply Hsome. discriminate.
Defined.

(** C8 as stated fails: on a machine that was not started, [send(None)]
    does not raise; it calls the entry callback of state 0 and leaves the
    machine started. *)
Lemma send_none_starts :
  task_gen (self Demo.unstarted) = GenCreated /\
  raised (send PNone Demo.unstarted) = None /\
  task_gen (self (after (send PNone Demo.unstarted))) = GenSuspended /\
  world (after (send PNone Demo.unstarted)) = ["A"] /\
  after (send PNone Demo.unstarted) <> Demo.unstarted.
Proof.
  repeat split; try reflexivity.
  intros H. apply (f_equal world) in H. vm_compute in H. discriminate.
Qed.

(** C9.  The program at the end of the module, with the markers A, B and C
    for the lines of the states 0, 1 and 2: [start()] and the four calls of
    [send] all return normally, the callbacks print A, B, C, A in this
    order, and the last call, [send(3)], calls no entry callback and leaves
    the machine in state 0. *)
Theorem demo_run :
  let r0 := start Demo.machine in
  let r1 := send (PInt 2) (after r0) in
  let r2 := send (PInt 3) (after r1) in
  let r3 := send (PInt 0) (after r2) in
  let r4 := send (PInt 3) (after r3) in
  raised (Demo.declare Demo.fresh) = None /\
  (raised r0 = None /\ world (after r0) = ["A"]) /\
  (raised r1 = None /\ world (after r1) = ["A"; "B"]) /\
  (raised r2 = None /\ world (after r2) = ["A"; "B"; "C"]) /\
  (raised r3 = None /\ world (after r3) = ["A"; "B"; "C"; "A"]) /\
  (raised r4 = None /\ world (after r4) = ["A"; "B"; "C"; "A"]) /\
  List.filter is_entry (calls (after r4))
  = [EvEntry 0; EvEntry 1; EvEntry 2; EvEntry 0] /\
  new_calls (after r3) (after r4) = [EvGuard 0 0 (PInt 3)] /\
  self (after r4) = self (after r3) /\
  current_state (self (after r4)) = 0.
Proof.
  vm_compute. repeat split.
Qed.

(** C10, instance: after the failure on the missing state 5, the state is
    registered, and the calls that follow still raise [StopIteration]. *)
Lemma send_failure_is_permanent_witness :
  let dead := after (send (PInt 7) Demo.dangling) in
  let later := script [AddState (PInt 5) (Fn (Demo.say "F")); Send (PInt 7);
                       Start; Send PNone] dead in
  raised (send (PInt 7) Demo.dangling) = Some (KeyError (PInt 5)) /\
  task_gen (self dead) = GenClosed /\
  is_Some (states (self (snd later)) !! 5) /\
  task_gen (self (snd later)) = GenClosed /\
  calls (snd later) = calls dead /\
  fst later !! 1%nat = Some (Some StopIteration) /\
  fst later !! 2%nat = Some (Some StopIteration) /\
  fst later !! 3%nat = Some (Some StopIteration).
Proof.
  destruct (send_failure_is_permanent Demo.dangling (PInt 7)
              (KeyError (PInt 5))
              [AddState (PInt 5) (Fn (Demo.say "F")); Send (PInt 7);
               Start; Send PNone])
    as (Hdead & Hclosed & _ & _ & Hcalls & Hstop).
  - reflexivity.
  - reflexivity.
  - intros dead later.
    split; [reflexivity|]. split; [exact Hdead|].
    split; [eexists; reflexivity|]. split; [exact Hclosed|].
    split; [exact Hcalls|].
    split; [|split].
    + apply (Hstop 1%nat (Send (PInt 7))); reflexivity.
    + apply (Hstop 2%nat Start); reflexivity.
    + apply (Hstop 3%nat (Send PNone)); reflexivity.
Defined.

(** * Further properties of the methods *)

(** ** The registry: [add_state], [del_state], [add_transition] *)

Section RegistryFacts.

Context {W : Type}.
Implicit Types (s : store W) (v : pyval) (st : State W) (f g : callable W).

(** X1.  [add_state] with an identifier that is not an integer, or with a
    callback that is not callable, raises [StateDeclarationError] and
    leaves the store as it was. *)
Theorem add_state_bad_arguments s state_id callback :
  as_int state_id = None \/ as_callable callback = None ->
  add_state state_id callback s = (inl StateDeclarationError, s).
Proof.
  intros [H|H]; unfold add_state; rewrite H; [reflexivity|].
  destruct (as_int state_id); reflexivity.
Qed.

(** X2.  [add_state] with a fresh integer identifier and a callable returns
    normally; the identifier is then bound to the callback with an empty
    list of transitions, every other identifier is bound as before, and
    the callback has not been called: the world, the log, the current state
    and the generator are as they were. *)
Theorem add_state_registers s state_id f k :
  as_int state_id = Some k ->
  states (self s) !! k = None ->
  raised (add_state state_id (Fn f) s) = None /\
  states (self (after (add_state state_id (Fn f) s))) !! k
  = Some (mkState f []) /\
  (forall j, j <> k ->
     states (self (after (add_state state_id (Fn f) s))) !! j
     = states (self s) !! j) /\
  world (after (add_state state_id (Fn f) s)) = world s /\
  calls (after (add_state state_id (Fn f) s)) = calls s /\
  current_state (self (after (add_state state_id (Fn f) s)))
  = current_state (self s) /\
  task_gen (self (after (add_state state_id (Fn f) s))) = task_gen (self s).
Proof.
  intros Hk Hnone. rewrite (add_state_inserts s state_id f k Hk Hnone).
  unfold raised, after, set_states. simpl.
  split; [reflexivity|]. split; [apply lookup_insert_eq|].
  split; [|repeat split].
  intros j Hj. apply lookup_insert_ne. congruence.
Qed.

(** X3.  [add_transition] with integer identifiers and a callable, but an
    origin that is not in the registry, raises [KeyError] and leaves the
    store as it was, whether or not the destination is registered. *)
Theorem add_transition_unknown_origin s origin destiny g o d :
  as_int origin = Some o ->
  as_int destiny = Some d ->
  states (self s) !! o = None ->
  add_transition origin destiny (Fn g) s = (inl (KeyError origin), s).
Proof.
  intros Ho Hd Hnone. unfold add_transition. rewrite Ho, Hd.
  unfold bind, get, raise. simpl. rewrite Hnone. reflexivity.
Qed.

(** X4.  Declaring a list of transitions of a registered state, one call
    after the other, never raises; the transitions are appended to those
    the state had, in the order of the calls, the state keeps its
    callback, and the other states are as they were. *)
Theorem declare_transitions_in_order (l : list (Z * callable W)) :
  forall s o st,
    states (self s) !! o = Some st ->
    fst (script (declare_transitions o l) s) = replicate (length l) None /\
    states (self (snd (script (declare_transitions o l) s))) !! o
    = Some (mkState (func st) (transitions st ++ declared l)) /\
    forall j, j <> o ->
      states (self (snd (script (declare_transitions o l) s))) !! j
      = states (self s) !! j.
Proof.
  induction l as [|[d g] l IH]; intros s o st Hst.
  - simpl. rewrite app_nil_r. destruct st. auto.
  - simpl.
    rewrite (add_transition_appends s (PInt o) (PInt d) g o d st)
      by (reflexivity || assumption).
    unfold after, raised. simpl.
    set (s1 := set_states _ s).
    assert (H1 : states (self s1) !! o
      = Some (mkState (func st) (transitions st ++ [mkTransition d g]))).
    { subst s1. simpl. apply lookup_insert_eq. }
    destruct (IH s1 o _ H1) as (Houts & Ho & Hother).
    destruct (script (declare_transitions o l) s1) as [outs s2].
    simpl in *. split; [rewrite Houts; reflexivity|].
    split.
    + rewrite Ho, <- app_assoc. reflexivity.
    + intros j Hj. rewrite (Hother j Hj). subst s1. simpl.
      apply lookup_insert_ne. congruence.
Qed.

(** X5.  [del_state] with an identifier that is not in the registry (no
    integer, or an integer that is not registered) raises [KeyError] with
    that identifier and leaves the store as it was. *)
Theorem del_state_missing s state_id :
  (forall k, as_int state_id = Some k -> states (self s) !! k = None) ->
  del_state state_id s = (inl (KeyError state_id), s).
Proof.
  intros H. unfold del_state. destruct (as_int state_id) as [k|]; [|reflexivity].
  unfold bind, get, raise. simpl. rewrite (H k eq_refl). reflexivity.
Qed.

Lemma del_state_deletes s state_id k st :
  as_int state_id = Some k ->
  states (self s) !! k = Some st ->
  del_state state_id s = (inr tt, set_states (delete k (states (self s))) s).
Proof.
  intros Hk Hst. unfold del_state. rewrite Hk.
  unfold bind, get, modify. simpl. rewrite Hst. reflexivity.
Qed.

(** X6.  [del_state] with a registered identifier returns normally and
    removes that state alone: every other state is as it was, with all its
    transitions, those that lead to the removed state included.  The
    current state, the generator, the world and the log are as they
    were. *)
Theorem del_state_removes_one s state_id k st :
  as_int state_id = Some k ->
  states (self s) !! k = Some st ->
  raised (del_state state_id s) = None /\
  states (self (after (del_state state_id s))) !! k = None /\
  (forall j, j <> k ->
     states (self (after (del_state state_id s))) !! j
     = states (self s) !! j) /\
  current_state (self (after (del_state state_id s)))
  = current_state (self s) /\
  task_gen (self (after (del_state state_id s))) = task_gen (self s) /\
  world (after (del_state state_id s)) = world s /\
  calls (after (del_state state_id s)) = calls s.
Proof.
  intros Hk Hst. rewrite (del_state_deletes s state_id k st Hk Hst).
  unfold raised, after, set_states. simpl.
  split; [reflexivity|]. split; [apply lookup_delete_eq|].
  split; [|repeat split].
  intros j Hj. apply lookup_delete_ne. congruence.
Qed.

(** X7.  Registering a fresh state and deleting it again gives back the
    store there was before the two calls. *)
Theorem add_state_del_state s state_id f k :
  as_int state_id = Some k ->
  states (self s) !! k = None ->
  raised (add_state state_id (Fn f) s) = None /\
  del_state state_id (after (add_state state_id (Fn f) s)) = (inr tt, s).
Proof.
  intros Hk Hnone. rewrite (add_state_inserts s state_id f k Hk Hnone).
  unfold raised, after. simpl. split; [reflexivity|].
  rewrite (del_state_deletes _ state_id k (mkState f []) Hk)
    by (simpl; apply lookup_insert_eq).
  destruct s as [[m cs gs] w l]. unfold set_states. simpl in *.
  rewrite (delete_insert_id m k _ Hnone). reflexivity.
Qed.

(** X8.  Deleting a registered state and registering its identifier again
    returns normally both times and binds the identifier to the new
    callback with an empty list of transitions: the transitions the state
    had are gone. *)
Theorem del_state_add_state s state_id f k st :
  as_int state_id = Some k ->
  states (self s) !! k = Some st ->
  raised (del_state state_id s) = None /\
  add_state state_id (Fn f) (after (del_state state_id s))
  = (inr tt, set_states (<[k := mkState f []]> (states (self s))) s).
Proof.
  intros Hk Hst. rewrite (del_state_deletes s state_id k st Hk Hst).
  unfold raised, after. simpl. split; [reflexivity|].
  rewrite (add_state_inserts _ state_id f k Hk)
    by (simpl; apply lookup_delete_eq).
  unfold set_states. simpl. rewrite insert_delete_eq. reflexivity.
Qed.

(** X9.  The three methods of the registry never call a callback and never
    touch the run state: after any of them, whether it raised or not, the
    world, the log, the current state and the generator are as before. *)
Theorem registry_calls_keep_run_state s (c : method W) :
  resumes c = false ->
  world (after (invoke c s)) = world s /\
  calls (after (invoke c s)) = calls s /\
  current_state (self (after (invoke c s))) = current_state (self s) /\
  task_gen (self (after (invoke c s))) = task_gen (self s).
Proof.
  intros Hc. destruct s as [[m cs gs] w l].
  destruct c; try discriminate; simpl;
    unfold add_state, add_transition, del_state, bind, get, modify, raise;
    simpl; repeat case_match; simpl; repeat split.
Qed.

End RegistryFacts.

(** ** The generator: [task], [start], [send] *)

Section EngineFacts.

Context {W : Type}.
Implicit Types (s : store W) (v : pyval) (st : State W) (t : Transition W).
Implicit Types (ts pre post : list (Transition W)) (w : W).






(** The [for] loop stops at a condition that raises. *)
Lemma task_for_raise v origin pre t post m w w1 w2 c e :
  all_reject v pre w w1 ->
  condition t [v] w1 = (Raise e, w2) ->
  task_for origin 0 (pre ++ t :: post) v (mkStore m w c)
  = (inl e, mkStore m w2 (c ++ guard_events origin 0 (S (length pre)) v)).
Proof.
  intros Hrej Hc. rewrite (task_for_reject _ _ _ _ _ _ Hrej). simpl.
  unfold bind, call. simpl. rewrite Hc.
  rewrite guard_events_snoc, <- app_assoc. reflexivity.
Qed.

Lemma gen_exn_not_stop (e : exn) : gen_exn e <> StopIteration.
Proof. destruct e; discriminate. Qed.

Lemma gen_run_not_stop (body : M W unit) s :
  raised (gen_run body s) <> Some StopIteration.
Proof.
  unfold gen_run, raised. destruct (body s) as [[e|u] s']; simpl.
  - intros [= H]. exact (gen_exn_not_stop e H).
  - discriminate.
Qed.





(** X11.  [start] on a machine that was not started and has no state 0
    raises [KeyError] for 0 without calling a callback, and closes the
    generator: registering state 0 afterwards does not help, the next
    [start] raises [StopIteration] and calls nothing. *)
Theorem start_without_initial_state s f :
  task_gen (self s) = GenCreated ->
  states (self s) !! 0 = None ->
  start s
  = (inl (KeyError (PInt 0)),
     mkStore (mkFSM (states (self s)) 0 GenClosed) (world s) (calls s)) /\
  raised (add_state (PInt 0) (Fn f) (after (start s))) = None /\
  raised (start (after (add_state (PInt 0) (Fn f) (after (start s)))))
  = Some StopIteration /\
  calls (after (start (after (add_state (PInt 0) (Fn f) (after (start s))))))
  = calls s.
Proof.
  intros Hg H0. destruct s as [[m cs gs] w c]. simpl in *. subst gs.
  assert (E : start (mkStore (mkFSM m cs GenCreated) w c)
    = (inl (KeyError (PInt 0)), mkStore (mkFSM m 0 GenClosed) w c)).
  { unfold start, gen_send, gen_run, task_begin, task_to_yield, task_entry,
      getitem_states, bind, get, modify, raise. simpl. rewrite H0.
    reflexivity. }
  rewrite E. split; [reflexivity|]. unfold after. simpl.
  rewrite (add_state_inserts _ (PInt 0) f 0 eq_refl) by exact H0.
  repeat split.
Qed.

(** X12.  [start] on a machine that was not started and has a state 0 whose
    callback returns: the callback is called once, no condition is
    evaluated, the current state is 0 and the machine is started. *)
Theorem start_runs_initial_entry s st0 r w' :
  task_gen (self s) = GenCreated ->
  states (self s) !! 0 = Some st0 ->
  func st0 [] (world s) = (Return r, w') ->
  start s
  = (inr tt,
     mkStore (mkFSM (states (self s)) 0 GenSuspended) w'
       (calls s ++ [EvEntry 0])).
Proof.
  intros Hg H0 Hf. destruct s as [[m cs gs] w c]. simpl in *. subst gs.
  unfold start, gen_send, gen_run, task_begin, task_to_yield, task_entry,
    getitem_states, bind, get, modify, raise, ret, call. simpl.
  rewrite H0. simpl. rewrite Hf. reflexivity.
Qed.

(** X13.  [start] on a machine that is already started is a [send] of
    [None]: when no condition of the current state accepts [None] it
    returns normally, the entry callback is not called again and the
    machine object is unchanged. *)
Theorem start_again_no_match s st w1 :
  started s ->
  states (self s) !! current_state (self s) = Some st ->
  all_reject PNone (transitions st) (world s) w1 ->
  start s
  = (inr tt,
     mkStore (self s) w1
       (calls s ++
        guard_events (current_state (self s)) 0 (length (transitions st))
          PNone)).
Proof.
  intros Hs Hcur Hrej. exact (send_no_match_eq s PNone st w1 Hs Hcur Hrej).
Qed.

(** X14.  [start] on a machine that is already started fires the first
    transition of the current state whose condition accepts [None]: the
    machine moves to its destination and the entry callback of the
    destination, when registered, is called. *)
Theorem start_again_fires s st pre t post w1 w2 dst :
  started s ->
  states (self s) !! current_state (self s) = Some st ->
  transitions st = pre ++ t :: post ->
  all_reject PNone pre (world s) w1 ->
  accepts PNone t w1 w2 ->
  states (self s) !! destiny_state t = Some dst ->
  current_state (self (after (start s))) = destiny_state t /\
  new_calls s (after (start s))
  = guard_events (current_state (self s)) 0 (S (length pre)) PNone ++
    [EvEntry (destiny_state t)] /\
  world (after (start s)) = snd (func dst [] w2).
Proof.
  intros Hs Hcur Hts Hrej Hacc Hdst. unfold start. fold (@send W PNone).
  rewrite (send_fire_registered s PNone st pre t post w1 w2 dst)
    by assumption.
  unfold after; cbn [fst snd self world calls current_state].
  rewrite new_calls_app. repeat split.
Qed.

(** X15.  When a condition raises, after the conditions before it have
    returned false values, [send] raises the same exception (a
    [RuntimeError] in place of a [StopIteration]); the current state is
    unchanged, the later conditions and the entry callbacks are not
    called, and the generator is closed. *)
Theorem send_condition_raises s v st pre t post w1 w2 e :
  started s ->
  states (self s) !! current_state (self s) = Some st ->
  transitions st = pre ++ t :: post ->
  all_reject v pre (world s) w1 ->
  condition t [v] w1 = (Raise e, w2) ->
  send v s
  = (inl (gen_exn e),
     mkStore (mkFSM (states (self s)) (current_state (self s)) GenClosed) w2
       (calls s ++
        guard_events (current_state (self s)) 0 (S (length pre)) v)).
Proof.
  intros Hs Hcur Hts Hrej Hc. rewrite (send_started s v Hs).
  destruct s as [[m cs gs] w c]. simpl in *.
  unfold gen_run, task_resume, getitem_states, bind at 1 2 3, get, ret.
  simpl. rewrite Hcur, Hts. unfold bind.
  rewrite (task_for_raise v cs pre t post _ w w1 w2 c e Hrej Hc).
  reflexivity.
Qed.

(** X16.  When a transition fires towards a registered state whose entry
    callback raises, [send] raises the same exception (a [RuntimeError] in
    place of a [StopIteration]); the current state is the destination all
    the same, the world is the one the callback left, and the generator is
    closed. *)
Theorem send_entry_raises s v st pre t post w1 w2 dst e w3 :
  started s ->
  states (self s) !! current_state (self s) = Some st ->
  transitions st = pre ++ t :: post ->
  all_reject v pre (world s) w1 ->
  accepts v t w1 w2 ->
  states (self s) !! destiny_state t = Some dst ->
  func dst [] w2 = (Raise e, w3) ->
  send v s
  = (inl (gen_exn e),
     mkStore (mkFSM (states (self s)) (destiny_state t) GenClosed) w3
       (calls s ++
        guard_events (current_state (self s)) 0 (S (length pre)) v ++
        [EvEntry (destiny_state t)])).
Proof.
  intros Hs Hcur Hts Hrej Hacc Hdst Hf.
  rewrite (send_fire_registered s v st pre t post w1 w2 dst) by assumption.
  rewrite Hf. reflexivity.
Qed.

(** X17.  [send] and [start] raise [StopIteration] exactly when the
    generator is closed: a [StopIteration] that a callback raises reaches
    the caller as a [RuntimeError]. *)
Theorem stop_iteration_iff_closed s v :
  (raised (send v s) = Some StopIteration <-> task_gen (self s) = GenClosed) /\
  (raised (start s) = Some StopIteration <-> task_gen (self s) = GenClosed).
Proof.
  assert (H : forall u,
    raised (gen_send u s) = Some StopIteration <->
    task_gen (self s) = GenClosed).
  { intros u. unfold gen_send, bind at 1, get. simpl.
    destruct (task_gen (self s)) eqn:Hg.
    - split; [|discriminate]. intros H. exfalso. revert H.
      destruct u; try discriminate. apply gen_run_not_stop.
    - split; [|discriminate]. intros H. exfalso. revert H.
      apply gen_run_not_stop.
    - split; reflexivity. }
  split; apply H.
Qed.

End EngineFacts.

(** ** The registry and the generator together *)

Section Together.

Context {W : Type}.
Implicit Types (s : store W) (v : pyval) (st : State W) (t : Transition W).




(** X19.  After [del_state] has removed the current state of a started
    machine, the next [send] raises [KeyError] for that state, whatever the
    value; no condition is evaluated and the generator is closed. *)
Theorem send_after_deleting_current s state_id v st :
  started s ->
  as_int state_id = Some (current_state (self s)) ->
  states (self s) !! current_state (self s) = Some st ->
  raised (del_state state_id s) = None /\
  send v (after (del_state state_id s))
  = (inl (KeyError (PInt (current_state (self s)))),
     mkStore
       (mkFSM (delete (current_state (self s)) (states (self s)))
          (current_state (self s)) GenClosed)
       (world s) (calls s)).
Proof.
  intros Hs Hk Hst.
  rewrite (del_state_deletes s state_id _ st Hk Hst).
  unfold raised, after. simpl. split; [reflexivity|].
  rewrite send_current_missing.
  - reflexivity.
  - exact Hs.
  - simpl. apply lookup_delete_eq.
Qed.

(** X20.  [del_state] does not remove the transitions that lead to the
    deleted state.  After it has removed the destination of a transition
    of the current state, a [send] that fires this transition raises
    [KeyError] for the destination, with the current state already set to
    it, and closes the generator. *)
Theorem send_after_deleting_destination s state_id v st pre t post w1 w2 dst :
  started s ->
  states (self s) !! current_state (self s) = Some st ->
  transitions st = pre ++ t :: post ->
  as_int state_id = Some (destiny_state t) ->
  destiny_state t <> current_state (self s) ->
  states (self s) !! destiny_state t = Some dst ->
  all_reject v pre (world s) w1 ->
  accepts v t w1 w2 ->
  raised (del_state state_id s) = None /\
  send v (after (del_state state_id s))
  = (inl (KeyError (PInt (destiny_state t))),
     mkStore
       (mkFSM (delete (destiny_state t) (states (self s)))
          (destiny_state t) GenClosed)
       w2
       (calls s ++
        guard_events (current_state (self s)) 0 (S (length pre)) v)).
Proof.
  intros Hs Hcur Hts Hk Hne Hdst Hrej Hacc.
  rewrite (del_state_deletes s state_id _ dst Hk Hdst).
  unfold raised, after. simpl. split; [reflexivity|].
  rewrite (send_fire_dangling _ v st pre t post w1 w2).
  - reflexivity.
  - exact Hs.
  - simpl. rewrite lookup_delete_ne by exact Hne. exact Hcur.
  - exact Hts.
  - exact Hrej.
  - exact Hacc.
  - simpl. apply lookup_delete_eq.
Qed.

End Together.

(** ** The further properties on the small machines *)

(** X1, instance: a string as identifier. *)
Lemma add_state_bad_arguments_witness :
  add_state (PStr "zero") (Fn (Demo.say "A")) Demo.fresh
  = (inl StateDeclarationError, Demo.fresh).
Proof.
  apply (add_state_bad_arguments Demo.fresh (PStr "zero") (Fn (Demo.say "A"))).
  left. reflexivity.
Defined.

(** X2, instance: state 1 added to a machine that has state 0. *)
Lemma add_state_registers_witness :
  raised (add_state (PInt 1) (Fn (Demo.say "B")) Demo.unstarted) = None /\
  states (self (after (add_state (PInt 1) (Fn (Demo.say "B")) Demo.unstarted)))
    !! 1
  = Some (mkState (Demo.say "B") []) /\
  world (after (add_state (PInt 1) (Fn (Demo.say "B")) Demo.unstarted)) = [].
Proof.
  destruct (add_state_registers Demo.unstarted (PInt 1) (Demo.say "B") 1)
    as (Hraised & Hnew & _ & Hworld & _).
  - reflexivity.
  - reflexivity.
  - split; [exact Hraised|]. split; [exact Hnew|exact Hworld].
Defined.

(** X3, instance: a transition from the unregistered state 3 to the
    registered state 0. *)
Lemma add_transition_unknown_origin_witness :
  add_transition (PInt 3) (PInt 0) (Fn (Demo.always true)) Demo.unstarted
  = (inl (KeyError (PInt 3)), Demo.unstarted).
Proof.
  apply (add_transition_unknown_origin Demo.unstarted (PInt 3) (PInt 0)
           (Demo.always true) 3 0); reflexivity.
Defined.

(** X4, instance: two transitions of state 0. *)
Lemma declare_transitions_in_order_witness :
  fst (script (declare_transitions 0
                 [(1, Demo.always true); (2, Demo.always false)])
         Demo.unstarted)
  = [None; None] /\
  states (self (snd (script (declare_transitions 0
                               [(1, Demo.always true); (2, Demo.always false)])
                       Demo.unstarted))) !! 0
  = Some (mkState (Demo.say "A")
            [mkTransition 1 (Demo.always true);
             mkTransition 2 (Demo.always false)]).
Proof.
  destruct (declare_transitions_in_order
              [(1, Demo.always true); (2, Demo.always false)]
              Demo.unstarted 0 (mkState (Demo.say "A") []))
    as (Houts & Hstate & _).
  - reflexivity.
  - split; [exact Houts|exact Hstate].
Defined.

(** X5, instance: state 4 is not registered. *)
Lemma del_state_missing_witness :
  del_state (PInt 4) Demo.unstarted
  = (inl (KeyError (PInt 4)), Demo.unstarted).
Proof.
  apply (del_state_missing Demo.unstarted (PInt 4)).
  intros k [= <-]. reflexivity.
Defined.

(** X6, instance: state 1 of the program's machine; state 0 keeps its
    transition to 1. *)
Lemma del_state_removes_one_witness :
  raised (del_state (PInt 1) Demo.machine) = None /\
  states (self (after (del_state (PInt 1) Demo.machine))) !! 1 = None /\
  states (self (after (del_state (PInt 1) Demo.machine))) !! 0
  = Some (mkState (Demo.say "A") [Demo.t01_on2]).
Proof.
  destruct (del_state_removes_one Demo.machine (PInt 1) 1
              (mkState (Demo.say "B") [mkTransition 2 (Demo.when_eq 3)]))
    as (Hraised & Hgone & Hother & _).
  - reflexivity.
  - reflexivity.
  - split; [exact Hraised|]. split; [exact Hgone|].
    rewrite (Hother 0) by discriminate. reflexivity.
Defined.

(** X7, instance: state 1 added and deleted. *)
Lemma add_state_del_state_witness :
  raised (add_state (PInt 1) (Fn (Demo.say "B")) Demo.unstarted) = None /\
  del_state (PInt 1)
    (after (add_state (PInt 1) (Fn (Demo.say "B")) Demo.unstarted))
  = (inr tt, Demo.unstarted).
Proof.
  apply (add_state_del_state Demo.unstarted (PInt 1) (Demo.say "B") 1);
    reflexivity.
Defined.

(** X8, instance: state 0 of the program's machine deleted and registered
    again. *)
Lemma del_state_add_state_witness :
  raised (del_state (PInt 0) Demo.machine) = None /\
  add_state (PInt 0) (Fn (Demo.say "Z")) (after (del_state (PInt 0) Demo.machine))
  = (inr tt,
     set_states (<[0 := mkState (Demo.say "Z") []]> (states (self Demo.machine)))
       Demo.machine).
Proof.
  apply (del_state_add_state Demo.machine (PInt 0) (Demo.say "Z") 0
           (mkState (Demo.say "A") [Demo.t01_on2])); reflexivity.
Defined.

(** X9, instance: the current state of the running machine is deleted. *)
Lemma registry_calls_keep_run_state_witness :
  world (after (invoke (DelState (PInt 0)) Demo.running)) = world Demo.running /\
  calls (after (invoke (DelState (PInt 0)) Demo.running)) = calls Demo.running /\
  current_state (self (after (invoke (DelState (PInt 0)) Demo.running)))
  = current_state (self Demo.running) /\
  task_gen (self (after (invoke (DelState (PInt 0)) Demo.running)))
  = task_gen (self Demo.running).
Proof.
  apply (registry_calls_keep_run_state Demo.running (DelState (PInt 0))).
  reflexivity.
Defined.

(** X11, instance: [start] on the empty machine. *)
Lemma start_without_initial_state_witness :
  start Demo.fresh
  = (inl (KeyError (PInt 0)), mkStore (mkFSM ∅ 0 GenClosed) [] []) /\
  raised (start (after (add_state (PInt 0) (Fn (Demo.say "A"))
                          (after (start Demo.fresh)))))
  = Some StopIteration.
Proof.
  destruct (start_without_initial_state Demo.fresh (Demo.say "A"))
    as (Hstart & _ & Hstop & _).
  - reflexivity.
  - reflexivity.
  - split; [exact Hstart|exact Hstop].
Defined.

(** X12, instance: [start] on the machine with state 0 alone. *)
Lemma start_runs_initial_entry_witness :
  start Demo.unstarted
  = (inr tt,
     mkStore (mkFSM (states (self Demo.unstarted)) 0 GenSuspended) ["A"]
       [EvEntry 0]).
Proof.
  apply (start_runs_initial_entry Demo.unstarted (mkState (Demo.say "A") [])
           PNone ["A"]); reflexivity.
Defined.

(** X13, instance: a second [start] of the program's machine. *)
Lemma start_again_no_match_witness :
  start Demo.running
  = (inr tt,
     mkStore (self Demo.running) ["A"]
       (calls Demo.running ++ guard_events 0 0 1 PNone)).
Proof.
  apply (start_again_no_match Demo.running
           (mkState (Demo.say "A") [Demo.t01_on2]) ["A"]).
  - reflexivity.
  - reflexivity.
  - eapply all_reject_cons.
    + reflexivity.
    + reflexivity.
    + apply all_reject_nil.
Defined.

(** X14, instance: a second [start] when a condition is always true. *)
Lemma start_again_fires_witness :
  current_state (self (after (start Demo.three_guards))) = 1 /\
  new_calls Demo.three_guards (after (start Demo.three_guards))
  = guard_events 0 0 2 PNone ++ [EvEntry 1] /\
  world (after (start Demo.three_guards)) = ["A"; "B"].
Proof.
  apply (start_again_fires Demo.three_guards
           (mkState (Demo.say "A")
              [Demo.t00_never; Demo.t01_always; Demo.t02_always])
           [Demo.t00_never] Demo.t01_always [Demo.t02_always] ["A"] ["A"]
           (mkState (Demo.say "B") [])).
  - reflexivity.
  - reflexivity.
  - reflexivity.
  - eapply all_reject_cons.
    + reflexivity.
    + reflexivity.
    + apply all_reject_nil.
  - exists (PBool true). split; reflexivity.
  - reflexivity.
Defined.

(** X15, instance: the second of three conditions raises. *)
Lemma send_condition_raises_witness :
  send (PInt 9) Faulty.failing_guard
  = (inl (OtherError "ValueError"),
     mkStore (mkFSM (states (self Faulty.failing_guard)) 0 GenClosed)
       ["A"; "asked"]
       (calls Faulty.failing_guard ++ guard_events 0 0 2 (PInt 9))).
Proof.
  apply (send_condition_raises Faulty.failing_guard (PInt 9)
           (mkState (Demo.say "A")
              [Demo.t00_never; Faulty.t01_fails; Demo.t02_always])
           [Demo.t00_never] Faulty.t01_fails [Demo.t02_always] ["A"]
           ["A"; "asked"] (OtherError "ValueError")).
  - reflexivity.
  - reflexivity.
  - reflexivity.
  - eapply all_reject_cons.
    + reflexivity.
    + reflexivity.
    + apply all_reject_nil.
  - reflexivity.
Defined.

(** X16, instance: the entry callback of state 1 raises [StopIteration]. *)
Lemma send_entry_raises_witness :
  send (PInt 9) Faulty.failing_entry
  = (inl RuntimeError,
     mkStore (mkFSM (states (self Faulty.failing_entry)) 1 GenClosed) ["A"]
       (calls Faulty.failing_entry ++ guard_events 0 0 1 (PInt 9) ++
        [EvEntry 1])).
Proof.
  apply (send_entry_raises Faulty.failing_entry (PInt 9)
           (mkState (Demo.say "A") [Demo.t01_always]) [] Demo.t01_always []
           ["A"] ["A"] (mkState (Faulty.throws StopIteration) [])
           StopIteration ["A"]).
  - reflexivity.
  - reflexivity.
  - reflexivity.
  - apply all_reject_nil.
  - exists (PBool true). split; reflexivity.
  - reflexivity.
  - reflexivity.
Defined.


(** X19, instance: state 0 of the running machine is deleted. *)
Lemma send_after_deleting_current_witness :
  raised (del_state (PInt 0) Demo.running) = None /\
  send (PInt 2) (after (del_state (PInt 0) Demo.running))
  = (inl (KeyError (PInt 0)),
     mkStore (mkFSM (delete 0 (states (self Demo.running))) 0 GenClosed)
       ["A"] [EvEntry 0]).
Proof.
  apply (send_after_deleting_current Demo.running (PInt 0) (PInt 2)
           (mkState (Demo.say "A") [Demo.t01_on2])); reflexivity.
Defined.

(** X20, instance: state 1 of the running machine is deleted and the
    transition from 0 to 1 fires. *)
Lemma send_after_deleting_destination_witness :
  raised (del_state (PInt 1) Demo.running) = None /\
  send (PInt 2) (after (del_state (PInt 1) Demo.running))
  = (inl (KeyError (PInt 1)),
     mkStore (mkFSM (delete 1 (states (self Demo.running))) 1 GenClosed)
       ["A"] ([EvEntry 0] ++ guard_events 0 0 1 (PInt 2))).
Proof.
  apply (send_after_deleting_destination Demo.running (PInt 1) (PInt 2)
           (mkState (Demo.say "A") [Demo.t01_on2]) [] Demo.t01_on2 []
           ["A"] ["A"]
           (mkState (Demo.say "B") [mkTransition 2 (Demo.when_eq 3)])).
  - reflexivity.
  - reflexivity.
  - reflexivity.
  - reflexivity.
  - discriminate.
  - reflexivity.
  - apply all_reject_nil.
  - exists (PBool true). split; reflexivity.
Defined.
